(** * DigitalOcean builder: configuration preparation and build orchestration

    A shallow embedding of [builder/digitalocean/config.go] ([Config],
    [Config.Prepare], lines 24-294) and of the builder file that follows it
    in the same source file ([Builder], [Builder.Prepare], [Builder.Run],
    lines 295-468).  Line numbers in the comments are those of that file.

    Go values are modelled as follows: [int] and [time.Duration] as [Z],
    [float64] as a primitive binary64 float, [string] as [string], a nil-able
    pointer [*T] as [option T], [map[string]struct{}] as [gset string] and
    [map[string]interface{}] as [gmap string value].  Everything the two files
    obtain from other packages (the process environment, the decoder, the
    communicator, the API client, the step runner) is an oracle in a record of
    type [Env] or [World]; the theorems quantify over those records. *)

From Stdlib Require Import ZArith String Ascii List.
From Stdlib Require Import Floats.PrimFloat.
From stdpp Require Import base gmap strings list.

Local Open Scope string_scope.
Local Open Scope Z_scope.

#[local] Set Warnings "-clear-no-such-hyp".

(** ** Errors *)

(** The dynamic types of [error] that the two files create or pass on.
    [errorString] is what [errors.New] and [fmt.Errorf] build, [NumError] is
    the failure of [strconv.Atoi] (its [Err] field is left out), and
    [MultiError] is [*packersdk.MultiError] with its [Errors] slice. *)
#[local] Unset Elimination Schemes.
Inductive error : Type :=
| errorString (s : string)
| NumError (Func Num : string)
| MultiError (Errors : list error).
#[local] Set Elimination Schemes.

Definition errors_New (text : string) : error := errorString text.

(** ** Package [time] *)

Module time.
Definition Duration := Z.
Definition Nanosecond : Duration := 1.
Definition Microsecond : Duration := 1000 * Nanosecond.
Definition Millisecond : Duration := 1000 * Microsecond.
Definition Second : Duration := 1000 * Millisecond.
Definition Minute : Duration := 60 * Second.
End time.

(** ** Package [strconv] *)

Module strconv.

Definition digit (ch : ascii) : option Z :=
  let n := Z.of_nat (nat_of_ascii ch) in
  if (48 <=? n) && (n <=? 57) then Some (n - 48) else None.

Fixpoint digits (s : string) (acc : Z) : option Z :=
  match s with
  | EmptyString => Some acc
  | String ch s' =>
      match digit ch with
      | Some d => digits s' (acc * 10 + d)
      | None => None
      end
  end.

Definition is_sign (ch : ascii) : bool :=
  bool_decide (ch = "+"%char) || bool_decide (ch = "-"%char).

(** [strconv.Atoi] for the 64-bit [int]: an optional sign, at least one
    decimal digit and nothing else, the value within the range of [int]. *)
Definition Atoi (s : string) : Z + error :=
  match s with
  | EmptyString => inr (NumError "Atoi" s)
  | String ch rest =>
      let body := if is_sign ch then rest else s in
      match body with
      | EmptyString => inr (NumError "Atoi" s)
      | _ =>
          match digits body 0 with
          | None => inr (NumError "Atoi" s)
          | Some n =>
              let n := if bool_decide (ch = "-"%char) then - n else n in
              if (- 2 ^ 63 <=? n) && (n <=? 2 ^ 63 - 1) then inl n
              else inr (NumError "Atoi" s)
          end
      end
  end.

End strconv.

(** ** Package [packersdk] *)

Module packersdk.

(** The errors to append, those that are themselves [MultiError]s replaced
    by their [Errors]. *)
Definition flatten (errs : list error) : list error :=
  flat_map (fun e => match e with MultiError l => l | _ => [e] end) errs.

(** [MultiErrorAppend(err, errs...)]: a nil [err] starts an empty
    [MultiError]; a [MultiError] receives the new errors, flattened; any
    other [err] becomes the first entry of a fresh [MultiError], followed by
    the new errors as they are.  The result is a [*MultiError]; it is given
    by its [Errors]. *)
Definition MultiErrorAppend (err : option error) (errs : list error) : list error :=
  match err with
  | None => flatten errs
  | Some (MultiError l) => l ++ flatten errs
  | Some e => e :: errs
  end.

(** [LogSecretFilter.Set(secret)] on the set of secrets of the global
    filter. *)
Definition LogSecretFilter_Set (secret : string) (filter : gset string) : gset string :=
  {[ secret ]} ∪ filter.

End packersdk.

(** ** Package [common]: the embedded [PackerConfig] *)

Module common.
Record PackerConfig : Type := {
  PackerBuildName : string;
  PackerBuilderType : string;
  PackerDebug : bool;
  PackerForce : bool;
  PackerOnError : string
}.
End common.

(** ** Package [communicator] *)

Module communicator.
Record SSHTemporaryKeyPair : Type := {
  SSHTemporaryKeyPairType : string;
  SSHTemporaryKeyPairBits : Z
}.

(** [communicator.Config] with the fields of its embedded [SSH] struct
    that the builder reads. *)
Record Config : Type := {
  Type_ : string;
  SSHPrivateKeyFile : string;
  SSHTemporaryKeyPair_ : SSHTemporaryKeyPair
}.
End communicator.

(** ** Package [godo] *)

Module godo.

Record Region : Type := { Slug : string; Name : string; Available : bool }.

Record ListOptions : Type := { Page : Z; PerPage : Z }.

(** [RetryConfig], without its [Logger]. *)
Record RetryConfig : Type := {
  RetryMax : Z;
  RetryWaitMin : option float;
  RetryWaitMax : option float
}.

Inductive ClientOpt : Type :=
| SetUserAgent (ua : string)
| SetBaseURL (bu : string)
| WithRetryAndBackoffs (retryConfig : RetryConfig).

(** A client is determined by the token source and the options it was
    built from. *)
Record Client : Type := { AccessToken : string; opts : list ClientOpt }.

End godo.

(** ** [Config] *)

Record Config : Type := {
  PackerConfig : common.PackerConfig;
  Comm : communicator.Config;
  APIToken : string;
  APIURL : string;
  HTTPRetryMax : option Z;
  HTTPRetryWaitMax : option float;
  HTTPRetryWaitMin : option float;
  Region : string;
  Size : string;
  Image : string;
  PrivateNetworking : bool;
  Monitoring : bool;
  DropletAgent : option bool;
  IPv6 : bool;
  SnapshotName : string;
  SnapshotRegions : list string;
  WaitSnapshotTransfer : option bool;
  TransferTimeout : time.Duration;
  StateTimeout : time.Duration;
  SnapshotTimeout : time.Duration;
  DropletName : string;
  UserData : string;
  UserDataFile : string;
  Tags : option (list string);
  VPCUUID : string;
  ConnectWithPrivateIP : bool;
  SSHKeyID : Z;
  SkipKeygen : bool
}.

(** Assignments to one field of [*Config]. *)

Definition set_Comm (v : communicator.Config) (c : Config) : Config :=
  Build_Config (PackerConfig c) v (APIToken c) (APIURL c) (HTTPRetryMax c)
    (HTTPRetryWaitMax c) (HTTPRetryWaitMin c) (Region c) (Size c) (Image c)
    (PrivateNetworking c) (Monitoring c) (DropletAgent c) (IPv6 c) (SnapshotName c)
    (SnapshotRegions c) (WaitSnapshotTransfer c) (TransferTimeout c) (StateTimeout c)
    (SnapshotTimeout c) (DropletName c) (UserData c) (UserDataFile c) (Tags c) (VPCUUID c)
    (ConnectWithPrivateIP c) (SSHKeyID c) (SkipKeygen c).

Definition set_APIToken (v : string) (c : Config) : Config :=
  Build_Config (PackerConfig c) (Comm c) v (APIURL c) (HTTPRetryMax c) (HTTPRetryWaitMax c)
    (HTTPRetryWaitMin c) (Region c) (Size c) (Image c) (PrivateNetworking c) (Monitoring c)
    (DropletAgent c) (IPv6 c) (SnapshotName c) (SnapshotRegions c) (WaitSnapshotTransfer c)
    (TransferTimeout c) (StateTimeout c) (SnapshotTimeout c) (DropletName c) (UserData c)
    (UserDataFile c) (Tags c) (VPCUUID c) (ConnectWithPrivateIP c) (SSHKeyID c)
    (SkipKeygen c).

Definition set_APIURL (v : string) (c : Config) : Config :=
  Build_Config (PackerConfig c) (Comm c) (APIToken c) v (HTTPRetryMax c)
    (HTTPRetryWaitMax c) (HTTPRetryWaitMin c) (Region c) (Size c) (Image c)
    (PrivateNetworking c) (Monitoring c) (DropletAgent c) (IPv6 c) (SnapshotName c)
    (SnapshotRegions c) (WaitSnapshotTransfer c) (TransferTimeout c) (StateTimeout c)
    (SnapshotTimeout c) (DropletName c) (UserData c) (UserDataFile c) (Tags c) (VPCUUID c)
    (ConnectWithPrivateIP c) (SSHKeyID c) (SkipKeygen c).

Definition set_HTTPRetryMax (v : option Z) (c : Config) : Config :=
  Build_Config (PackerConfig c) (Comm c) (APIToken c) (APIURL c) v (HTTPRetryWaitMax c)
    (HTTPRetryWaitMin c) (Region c) (Size c) (Image c) (PrivateNetworking c) (Monitoring c)
    (DropletAgent c) (IPv6 c) (SnapshotName c) (SnapshotRegions c) (WaitSnapshotTransfer c)
    (TransferTimeout c) (StateTimeout c) (SnapshotTimeout c) (DropletName c) (UserData c)
    (UserDataFile c) (Tags c) (VPCUUID c) (ConnectWithPrivateIP c) (SSHKeyID c)
    (SkipKeygen c).

Definition set_HTTPRetryWaitMax (v : option float) (c : Config) : Config :=
  Build_Config (PackerConfig c) (Comm c) (APIToken c) (APIURL c) (HTTPRetryMax c) v
    (HTTPRetryWaitMin c) (Region c) (Size c) (Image c) (PrivateNetworking c) (Monitoring c)
    (DropletAgent c) (IPv6 c) (SnapshotName c) (SnapshotRegions c) (WaitSnapshotTransfer c)
    (TransferTimeout c) (StateTimeout c) (SnapshotTimeout c) (DropletName c) (UserData c)
    (UserDataFile c) (Tags c) (VPCUUID c) (ConnectWithPrivateIP c) (SSHKeyID c)
    (SkipKeygen c).

Definition set_HTTPRetryWaitMin (v : option float) (c : Config) : Config :=
  Build_Config (PackerConfig c) (Comm c) (APIToken c) (APIURL c) (HTTPRetryMax c)
    (HTTPRetryWaitMax c) v (Region c) (Size c) (Image c) (PrivateNetworking c)
    (Monitoring c) (DropletAgent c) (IPv6 c) (SnapshotName c) (SnapshotRegions c)
    (WaitSnapshotTransfer c) (TransferTimeout c) (StateTimeout c) (SnapshotTimeout c)
    (DropletName c) (UserData c) (UserDataFile c) (Tags c) (VPCUUID c)
    (ConnectWithPrivateIP c) (SSHKeyID c) (SkipKeygen c).

Definition set_SnapshotName (v : string) (c : Config) : Config :=
  Build_Config (PackerConfig c) (Comm c) (APIToken c) (APIURL c) (HTTPRetryMax c)
    (HTTPRetryWaitMax c) (HTTPRetryWaitMin c) (Region c) (Size c) (Image c)
    (PrivateNetworking c) (Monitoring c) (DropletAgent c) (IPv6 c) v (SnapshotRegions c)
    (WaitSnapshotTransfer c) (TransferTimeout c) (StateTimeout c) (SnapshotTimeout c)
    (DropletName c) (UserData c) (UserDataFile c) (Tags c) (VPCUUID c)
    (ConnectWithPrivateIP c) (SSHKeyID c) (SkipKeygen c).

Definition set_WaitSnapshotTransfer (v : option bool) (c : Config) : Config :=
  Build_Config (PackerConfig c) (Comm c) (APIToken c) (APIURL c) (HTTPRetryMax c)
    (HTTPRetryWaitMax c) (HTTPRetryWaitMin c) (Region c) (Size c) (Image c)
    (PrivateNetworking c) (Monitoring c) (DropletAgent c) (IPv6 c) (SnapshotName c)
    (SnapshotRegions c) v (TransferTimeout c) (StateTimeout c) (SnapshotTimeout c)
    (DropletName c) (UserData c) (UserDataFile c) (Tags c) (VPCUUID c)
    (ConnectWithPrivateIP c) (SSHKeyID c) (SkipKeygen c).

Definition set_TransferTimeout (v : time.Duration) (c : Config) : Config :=
  Build_Config (PackerConfig c) (Comm c) (APIToken c) (APIURL c) (HTTPRetryMax c)
    (HTTPRetryWaitMax c) (HTTPRetryWaitMin c) (Region c) (Size c) (Image c)
    (PrivateNetworking c) (Monitoring c) (DropletAgent c) (IPv6 c) (SnapshotName c)
    (SnapshotRegions c) (WaitSnapshotTransfer c) v (StateTimeout c) (SnapshotTimeout c)
    (DropletName c) (UserData c) (UserDataFile c) (Tags c) (VPCUUID c)
    (ConnectWithPrivateIP c) (SSHKeyID c) (SkipKeygen c).

Definition set_StateTimeout (v : time.Duration) (c : Config) : Config :=
  Build_Config (PackerConfig c) (Comm c) (APIToken c) (APIURL c) (HTTPRetryMax c)
    (HTTPRetryWaitMax c) (HTTPRetryWaitMin c) (Region c) (Size c) (Image c)
    (PrivateNetworking c) (Monitoring c) (DropletAgent c) (IPv6 c) (SnapshotName c)
    (SnapshotRegions c) (WaitSnapshotTransfer c) (TransferTimeout c) v (SnapshotTimeout c)
    (DropletName c) (UserData c) (UserDataFile c) (Tags c) (VPCUUID c)
    (ConnectWithPrivateIP c) (SSHKeyID c) (SkipKeygen c).

Definition set_SnapshotTimeout (v : time.Duration) (c : Config) : Config :=
  Build_Config (PackerConfig c) (Comm c) (APIToken c) (APIURL c) (HTTPRetryMax c)
    (HTTPRetryWaitMax c) (HTTPRetryWaitMin c) (Region c) (Size c) (Image c)
    (PrivateNetworking c) (Monitoring c) (DropletAgent c) (IPv6 c) (SnapshotName c)
    (SnapshotRegions c) (WaitSnapshotTransfer c) (TransferTimeout c) (StateTimeout c) v
    (DropletName c) (UserData c) (UserDataFile c) (Tags c) (VPCUUID c)
    (ConnectWithPrivateIP c) (SSHKeyID c) (SkipKeygen c).

Definition set_DropletName (v : string) (c : Config) : Config :=
  Build_Config (PackerConfig c) (Comm c) (APIToken c) (APIURL c) (HTTPRetryMax c)
    (HTTPRetryWaitMax c) (HTTPRetryWaitMin c) (Region c) (Size c) (Image c)
    (PrivateNetworking c) (Monitoring c) (DropletAgent c) (IPv6 c) (SnapshotName c)
    (SnapshotRegions c) (WaitSnapshotTransfer c) (TransferTimeout c) (StateTimeout c)
    (SnapshotTimeout c) v (UserData c) (UserDataFile c) (Tags c) (VPCUUID c)
    (ConnectWithPrivateIP c) (SSHKeyID c) (SkipKeygen c).

Definition set_Tags (v : option (list string)) (c : Config) : Config :=
  Build_Config (PackerConfig c) (Comm c) (APIToken c) (APIURL c) (HTTPRetryMax c)
    (HTTPRetryWaitMax c) (HTTPRetryWaitMin c) (Region c) (Size c) (Image c)
    (PrivateNetworking c) (Monitoring c) (DropletAgent c) (IPv6 c) (SnapshotName c)
    (SnapshotRegions c) (WaitSnapshotTransfer c) (TransferTimeout c) (StateTimeout c)
    (SnapshotTimeout c) (DropletName c) (UserData c) (UserDataFile c) v (VPCUUID c)
    (ConnectWithPrivateIP c) (SSHKeyID c) (SkipKeygen c).

(** ** Control flow of a Go function body

    A computation over a mutable state [S] inside a function whose result
    type is [R]: it goes on with a value ([Next]), leaves the function through
    a [return] statement ([Return]), or panics ([Panic]). *)

Inductive Flow (S R A : Type) : Type :=
| Next (a : A) (s : S)
| Return (r : R) (s : S)
| Panic (v : error) (s : S).

Arguments Next {S R A} a s.
Arguments Return {S R A} r s.
Arguments Panic {S R A} v s.

Definition M (S R A : Type) : Type := S -> Flow S R A.

Section Flow.
Context {S R : Type}.

Definition ret {A} (a : A) : M S R A := fun s => Next a s.

Definition bind {A B} (m : M S R A) (k : A -> M S R B) : M S R B :=
  fun s =>
    match m s with
    | Next a s' => k a s'
    | Return r s' => Return r s'
    | Panic v s' => Panic v s'
    end.

Definition return_ {A} (r : R) : M S R A := fun s => Return r s.
Definition panic {A} (v : error) : M S R A := fun s => Panic v s.
Definition modify (f : S -> S) : M S R unit := fun s => Next tt (f s).

(** A call of a function from a body with another result type: the
    callee's [return] becomes the value of the call. *)
Definition call {R' : Type} (m : M S R' R') : M S R R' :=
  fun s =>
    match m s with
    | Next a s' | Return a s' => Next a s'
    | Panic v s' => Panic v s'
    end.
End Flow.

Declare Scope go_scope.
Delimit Scope go_scope with go.
Notation "x <- m ;; k" := (bind m (fun x => k))
  (at level 100, m at next level, right associativity) : go_scope.
Notation "m ;;; k" := (bind m (fun _ => k))
  (at level 100, right associativity) : go_scope.

Local Open Scope go_scope.

(** ** [Config.Prepare] *)

(** What [Config.Prepare] asks of other packages. *)
Record Env : Type := {
  (** [config.Decode(c, opts, raws...)]: the receiver as the decoder leaves
      it, and the decoder's error. *)
  Decode : Config -> Config * option error;
  (** [os.Getenv]; the empty string stands for an unset variable. *)
  Getenv : string -> string;
  (** [strconv.ParseFloat(s, 64)] *)
  ParseFloat : string -> float + error;
  (** [interpolate.Render(s, nil)] *)
  Render : string -> string + error;
  (** [uuid.TimeOrderedUUID()] *)
  TimeOrderedUUID : string;
  (** the error of [os.Stat] *)
  Stat : string -> option error;
  (** [c.Comm.Prepare(&c.ctx)]: the communicator configuration as it leaves
      it, and the errors it reports. *)
  Comm_Prepare : communicator.Config -> communicator.Config * list error
}.

(** The memory [Config.Prepare] writes: its receiver and the global
    [packersdk.LogSecretFilter]. *)
Record Store : Type := { config : Config; LogSecretFilter : gset string }.

(** The two results of [Config.Prepare]: the warnings and the error. *)
Definition PrepareResult : Type := list string * option error.

Definition getc {R} : M Store R Config := fun s => Next (config s) s.

(** The store after an assignment to the receiver. *)
Definition upd (f : Config -> Config) (s : Store) : Store :=
  {| config := f (config s); LogSecretFilter := LogSecretFilter s |}.

Definition assign {R} (f : Config -> Config) : M Store R unit := modify (upd f).

Definition deprecation_warning : string :=
  "The DIGITALOCEAN_API_TOKEN environment variable is deprecated " +:+
  "and will produce an error in future versions of the DigitalOcean Packer plugin. " +:+
  "Please use either DIGITALOCEAN_TOKEN or DIGITALOCEAN_ACCESS_TOKEN moving forward.".

(** lines 131-143 *)
Definition decode (w : Env) : M Store PrepareResult unit :=
  c <- getc ;;
  assign (fun _ => fst (Decode w c)) ;;;
  match snd (Decode w c) with
  | Some err => return_ ([], Some err)
  | None => ret tt
  end.

(** lines 146-160 *)
Definition default_APIToken (w : Env) (warns : list string) : M Store PrepareResult (list string) :=
  c <- getc ;;
  if bool_decide (APIToken c = "") then
    assign (set_APIToken (Getenv w "DIGITALOCEAN_TOKEN")) ;;;
    c <- getc ;;
    (if bool_decide (APIToken c = "")
     then assign (set_APIToken (Getenv w "DIGITALOCEAN_ACCESS_TOKEN"))
     else ret tt) ;;;
    c <- getc ;;
    if bool_decide (APIToken c = "") then
      assign (set_APIToken (Getenv w "DIGITALOCEAN_API_TOKEN")) ;;;
      c <- getc ;;
      if bool_decide (APIToken c ≠ "") then ret (warns ++ [deprecation_warning])%list
      else ret warns
    else ret warns
  else ret warns.

(** lines 161-163 *)
Definition default_APIURL (w : Env) : M Store PrepareResult unit :=
  c <- getc ;;
  if bool_decide (APIURL c = "") then assign (set_APIURL (Getenv w "DIGITALOCEAN_API_URL"))
  else ret tt.

(** lines 164-173 *)
Definition default_HTTPRetryMax (w : Env) : M Store PrepareResult unit :=
  c <- getc ;;
  if HTTPRetryMax c is None then
    assign (set_HTTPRetryMax (Some 5)) ;;;
    let max := Getenv w "DIGITALOCEAN_HTTP_RETRY_MAX" in
    if bool_decide (max ≠ "") then
      match strconv.Atoi max with
      | inr err => return_ ([], Some err)
      | inl maxInt => assign (set_HTTPRetryMax (Some maxInt))
      end
    else ret tt
  else ret tt.

(** lines 174-183 *)
Definition default_HTTPRetryWaitMax (w : Env) : M Store PrepareResult unit :=
  c <- getc ;;
  if HTTPRetryWaitMax c is None then
    assign (set_HTTPRetryWaitMax (Some 30%float)) ;;;
    let waitMax := Getenv w "DIGITALOCEAN_HTTP_RETRY_WAIT_MAX" in
    if bool_decide (waitMax ≠ "") then
      match ParseFloat w waitMax with
      | inr err => return_ ([], Some err)
      | inl waitMaxFloat => assign (set_HTTPRetryWaitMax (Some waitMaxFloat))
      end
    else ret tt
  else ret tt.

(** lines 184-193 *)
Definition default_HTTPRetryWaitMin (w : Env) : M Store PrepareResult unit :=
  c <- getc ;;
  if HTTPRetryWaitMin c is None then
    assign (set_HTTPRetryWaitMin (Some 1%float)) ;;;
    let waitMin := Getenv w "DIGITALOCEAN_HTTP_RETRY_WAIT_MIN" in
    if bool_decide (waitMin ≠ "") then
      match ParseFloat w waitMin with
      | inr err => return_ ([], Some err)
      | inl waitMinFloat => assign (set_HTTPRetryWaitMin (Some waitMinFloat))
      end
    else ret tt
  else ret tt.

(** lines 195-203 *)
Definition default_SnapshotName (w : Env) : M Store PrepareResult unit :=
  c <- getc ;;
  if bool_decide (SnapshotName c = "") then
    match Render w "packer-{{timestamp}}" with
    | inr err => panic err
    | inl def => assign (set_SnapshotName def)
    end
  else ret tt.

(** lines 205-208 *)
Definition default_DropletName (w : Env) : M Store PrepareResult unit :=
  c <- getc ;;
  if bool_decide (DropletName c = "")
  then assign (set_DropletName ("packer-" +:+ TimeOrderedUUID w))
  else ret tt.

(** lines 210-223 *)
Definition default_timeouts : M Store PrepareResult unit :=
  c <- getc ;;
  (if bool_decide (StateTimeout c = 0)
   then assign (set_StateTimeout (6 * time.Minute)) else ret tt) ;;;
  c <- getc ;;
  (if bool_decide (SnapshotTimeout c = 0)
   then assign (set_SnapshotTimeout (60 * time.Minute)) else ret tt) ;;;
  c <- getc ;;
  if bool_decide (TransferTimeout c = 0)
  then assign (set_TransferTimeout (30 * time.Minute)) else ret tt.

(** lines 225-227 *)
Definition default_WaitSnapshotTransfer : M Store PrepareResult unit :=
  c <- getc ;;
  if WaitSnapshotTransfer c is None then assign (set_WaitSnapshotTransfer (Some true))
  else ret tt.

(** The decoding and the defaults, lines 131-227: the part of
    [Config.Prepare] that can return early with a decoding or parsing error,
    or panic. *)
Definition Prepare_defaults (w : Env) : M Store PrepareResult (list string) :=
  decode w ;;;
  warns <- default_APIToken w [] ;;
  default_APIURL w ;;;
  default_HTTPRetryMax w ;;;
  default_HTTPRetryWaitMax w ;;;
  default_HTTPRetryWaitMin w ;;;
  default_SnapshotName w ;;;
  default_DropletName w ;;;
  default_timeouts ;;;
  default_WaitSnapshotTransfer ;;;
  ret warns.

(** [regexp.MustCompile("^[[:alnum:]:_-]{1,255}$").MatchString]: between 1
    and 255 characters, each an ASCII letter or digit, a colon, an underscore
    or a hyphen. *)
Definition tag_char (ch : ascii) : bool :=
  let n := Z.of_nat (nat_of_ascii ch) in
  (48 <=? n) && (n <=? 57) || (65 <=? n) && (n <=? 90) || (97 <=? n) && (n <=? 122)
  || bool_decide (ch = ":"%char) || bool_decide (ch = "_"%char) || bool_decide (ch = "-"%char).

Definition tagRe_MatchString (t : string) : bool :=
  (1 <=? Z.of_nat (String.length t)) && (Z.of_nat (String.length t) <=? 255)
  && forallb tag_char (list_ascii_of_string t).

(** [errs = packersdk.MultiErrorAppend(errs, more...)] on the local
    [errs *packersdk.MultiError]: [None] is the nil pointer, [Some l] a
    [MultiError] whose [Errors] are [l]. *)
Definition append_errs (errs : option (list error)) (more : list error) : option (list error) :=
  Some (packersdk.MultiErrorAppend (MultiError <$> errs) more).

(** The validation, lines 229-286; its value is the local [errs]. *)
Definition Prepare_validate (w : Env) : M Store PrepareResult (option (list error)) :=
  let errs : option (list error) := None in
  c <- getc ;;
  let es := snd (Comm_Prepare w (Comm c)) in
  assign (set_Comm (fst (Comm_Prepare w (Comm c)))) ;;;
  let errs := if bool_decide (0 < length es)%nat then append_errs errs es else errs in
  c <- getc ;;
  let errs :=
    if bool_decide (APIToken c = "")
    then append_errs errs [errors_New "api_token for auth must be specified"] else errs in
  let errs :=
    if bool_decide (Region c = "")
    then append_errs errs [errors_New "region is required"] else errs in
  let errs :=
    if bool_decide (Size c = "")
    then append_errs errs [errors_New "size is required"] else errs in
  let errs :=
    if bool_decide (Image c = "")
    then append_errs errs [errors_New "image is required"] else errs in
  let errs :=
    if bool_decide (UserData c ≠ "") && bool_decide (UserDataFile c ≠ "") then
      append_errs errs
        [errors_New "only one of user_data or user_data_file can be specified"]
    else if bool_decide (UserDataFile c ≠ "") then
      match Stat w (UserDataFile c) with
      | Some _ => append_errs errs [errorString ("user_data_file not found: " +:+ UserDataFile c)]
      | None => errs
      end
    else errs in
  (if Tags c is None then assign (set_Tags (Some [])) else ret tt) ;;;
  c <- getc ;;
  let errs :=
    fold_left
      (fun errs t =>
         if negb (tagRe_MatchString t)
         then append_errs errs [errorString ("invalid tag: " +:+ t)] else errs)
      (default [] (Tags c)) errs in
  let errs :=
    if bool_decide (VPCUUID c ≠ "") then
      if negb (PrivateNetworking c)
      then append_errs errs
             [errors_New "private networking should be enabled to use vpc_uuid"]
      else errs
    else errs in
  let errs :=
    if ConnectWithPrivateIP c then
      if negb (PrivateNetworking c)
      then append_errs errs
             [errors_New "private networking should be enabled to use connect_with_private_ip"]
      else errs
    else errs in
  ret errs.

(** lines 288-293 *)
Definition Prepare_finish (warns : list string) (errs : option (list error))
  : M Store PrepareResult PrepareResult :=
  if (if errs is Some l then bool_decide (0 < length l)%nat else false) then
    return_ (warns, MultiError <$> errs)
  else
    c <- getc ;;
    modify (fun s => {| config := config s;
                        LogSecretFilter :=
                          packersdk.LogSecretFilter_Set (APIToken c) (LogSecretFilter s) |}) ;;;
    return_ (warns, None).

Definition Config_Prepare (w : Env) : M Store PrepareResult PrepareResult :=
  warns <- Prepare_defaults w ;;
  errs <- Prepare_validate w ;;
  Prepare_finish warns errs.

(** ** [Builder.Prepare] *)

(** The three results of [Builder.Prepare]. *)
Definition BuilderPrepareResult : Type := list string * list string * option error.

Definition Builder_Prepare (w : Env) : M Store BuilderPrepareResult BuilderPrepareResult :=
  r <- call (Config_Prepare w) ;;
  let warnings := fst r in
  let errs := snd r in
  c <- getc ;;
  let errs :=
    if bool_decide (SSHKeyID c ≠ 0) && bool_decide (communicator.SSHPrivateKeyFile (Comm c) = "")
    then
      Some (MultiError (packersdk.MultiErrorAppend errs
        [errorString "Must specify a `ssh_private_key_file` when using `ssh_key_id`."]))
    else errs in
  if errs is Some _ then return_ ([], warnings, errs)
  else return_ ([], warnings, None).

(** ** Steps and the state bag *)

(** The steps [Builder.Run] puts in its list.  Fields that are pointers into
    [b.config], and the host and SSH configuration closures of [StepConnect],
    are left out. *)
Inductive Step : Type :=
| nullStep
| StepSSHKeyGen (SSHTemporaryKeyPair : communicator.SSHTemporaryKeyPair)
| StepDumpSSHKey (Path : string)
| stepCreateSSHKey
| stepCreateDroplet
| stepDropletInfo
| StepConnect
| StepProvision
| StepCleanupTempKeys
| stepShutdown
| stepPowerOff
| stepSnapshot (snapshotTimeout transferTimeout : time.Duration)
    (waitForSnapshotTransfer : bool).

Global Instance SSHTemporaryKeyPair_eq_dec : EqDecision communicator.SSHTemporaryKeyPair.
Proof. solve_decision. Defined.

Global Instance Step_eq_dec : EqDecision Step.
Proof. solve_decision. Defined.

(** The values [Builder.Run] puts in or reads from the state bag, by dynamic
    type; [Other] is a value of any other type. *)
Inductive value : Type :=
| ConfigPtr (c : Config)
| ClientPtr (client : godo.Client)
| Hook
| Ui
| Str (s : string)
| Int (n : Z)
| Strings (l : list string)
| Err (e : error)
| Other (dynamicType : string)
| Nil.

Module multistep.

(** [multistep.If] *)
Definition If (on : bool) (step : Step) : Step :=
  if Bool.eqb on false then nullStep else step.

(** [BasicStateBag]: [Put], [GetOk] and [Get] on [map[string]interface{}]. *)
Definition Put (k : string) (v : value) (state : gmap string value) : gmap string value :=
  <[ k := v ]> state.
Definition GetOk (state : gmap string value) (k : string) : option value := state !! k.
Definition Get (state : gmap string value) (k : string) : value := default Nil (state !! k).

End multistep.

(** ** [Artifact], as [Builder.Run] fills it *)

Module Artifact.
Record t : Type := {
  SnapshotName : string;
  SnapshotId : Z;
  RegionNames : list string;
  Client : godo.Client;
  StateData : gmap string value
}.
End Artifact.

(** ** [Builder.Run] *)

(** What [Builder.Run] asks of other packages.  An error of another package
    is given by its message, which is all [Builder.Run] uses of it. *)
Record World : Type := {
  (** [useragent.String(version.PluginVersion.FormattedVersion())] *)
  UserAgent : string;
  (** the error of [url.Parse] *)
  url_Parse : string -> option string;
  (** the error of [godo.New] for the client with this token and options *)
  godo_New : godo.Client -> option string;
  (** [client.Regions.List(ctx, opt)] *)
  Regions_List : godo.ListOptions -> list godo.Region + string;
  (** the state bag as [b.runner.Run(ctx, state)] leaves it, for the runner
      that [commonsteps.NewRunner] makes of the steps and the Packer
      configuration *)
  runner_Run : list Step -> common.PackerConfig -> gmap string value -> gmap string value
}.

(** What a run does, in order. *)
Inductive Event : Type :=
| url_Parse_call (rawURL : string)
| godo_New_call (client : godo.Client)
| Regions_List_call (opt : godo.ListOptions)
| new_BasicStateBag
| runner_Run_call (steps : list Step) (state state' : gmap string value)
| log_Println (msg : string).

(** The two results of [Builder.Run]. *)
Definition RunResult : Type := option Artifact.t * option error.

Definition emit {R} (e : Event) : M (list Event) R unit := modify (fun tr => tr ++ [e])%list.

Definition nil_dereference : error :=
  errorString "runtime error: invalid memory address or nil pointer dereference".
Definition interface_conversion : error := errorString "interface conversion".

(** [*p] *)
Definition deref {S R A} (p : option A) : M S R A :=
  match p with
  | Some a => ret a
  | None => panic nil_dereference
  end.

(** The type assertions [v.(string)], [v.(int)], [v.([]string)] and
    [v.(error)]. *)
Definition assert_string {S R} (v : value) : M S R string :=
  if v is Str s then ret s else panic interface_conversion.
Definition assert_int {S R} (v : value) : M S R Z :=
  if v is Int n then ret n else panic interface_conversion.
Definition assert_strings {S R} (v : value) : M S R (list string) :=
  if v is Strings l then ret l else panic interface_conversion.
Definition assert_error {S R} (v : value) : M S R error :=
  if v is Err e then ret e else panic interface_conversion.

(** lines 380-383 *)
Definition validRegions (regions : list godo.Region) : gset string :=
  fold_left (fun m val => {[ godo.Slug val ]} ∪ m) regions ∅.

(** lines 385-389 *)
Fixpoint check_regions (valid : gset string) (l : list string) : M (list Event) RunResult unit :=
  match l with
  | [] => ret tt
  | region :: l =>
      if bool_decide (region ∈ valid) then check_regions valid l
      else return_ (None, Some (errorString ("DigitalOcean: Invalid region, " +:+ region)))
  end.

(** line 400 *)
Definition genTempKeyPair (c : Config) : bool :=
  negb (SkipKeygen c)
  && (bool_decide (SSHKeyID c = 0) || bool_decide (communicator.SSHPrivateKeyFile (Comm c) = "")).

(** lines 403-437; [wait] is [*b.config.WaitSnapshotTransfer] *)
Definition steps (c : Config) (wait : bool) : list Step :=
  [ multistep.If (genTempKeyPair c)
      (StepSSHKeyGen (communicator.SSHTemporaryKeyPair_ (Comm c)));
    multistep.If
      (common.PackerDebug (PackerConfig c)
       && bool_decide (communicator.SSHPrivateKeyFile (Comm c) = ""))
      (StepDumpSSHKey ("do_" +:+ common.PackerBuildName (PackerConfig c) +:+ ".pem"));
    multistep.If (genTempKeyPair c) stepCreateSSHKey;
    stepCreateDroplet;
    stepDropletInfo;
    StepConnect;
    StepProvision;
    multistep.If (genTempKeyPair c) StepCleanupTempKeys;
    stepShutdown;
    stepPowerOff;
    stepSnapshot (SnapshotTimeout c) (TransferTimeout c) wait ].

(** lines 453-465 *)
Definition make_artifact (client : godo.Client) (state : gmap string value)
  : M (list Event) RunResult Artifact.t :=
  name <- assert_string (multistep.Get state "snapshot_name") ;;
  id <- assert_int (multistep.Get state "snapshot_image_id") ;;
  regions <- assert_strings (multistep.Get state "regions") ;;
  ret {| Artifact.SnapshotName := name;
         Artifact.SnapshotId := id;
         Artifact.RegionNames := regions;
         Artifact.Client := client;
         Artifact.StateData :=
           <[ "generated_data" := multistep.Get state "generated_data" ]>
           (<[ "source_image_id" := multistep.Get state "source_image_id" ]>
           (<[ "droplet_size" := multistep.Get state "droplet_size" ]>
           (<[ "droplet_name" := multistep.Get state "droplet_name" ]>
           (<[ "build_region" := multistep.Get state "build_region" ]> ∅)))) |}.

Definition Run (w : World) (c : Config) : M (list Event) RunResult RunResult :=
  let ua := UserAgent w in
  let opts := [godo.SetUserAgent ua] in
  opts <-
    (if bool_decide (APIURL c ≠ "") then
       emit (url_Parse_call (APIURL c)) ;;;
       match url_Parse w (APIURL c) with
       | Some err =>
           return_ (None, Some (errorString ("DigitalOcean: Invalid API URL, " +:+ err +:+ ".")))
       | None => ret (opts ++ [godo.SetBaseURL (APIURL c)])%list
       end
     else ret opts) ;;
  retryMax <- deref (HTTPRetryMax c) ;;
  let opts :=
    if bool_decide (0 < retryMax) then
      (opts ++ [godo.WithRetryAndBackoffs
                  {| godo.RetryMax := retryMax;
                     godo.RetryWaitMin := HTTPRetryWaitMin c;
                     godo.RetryWaitMax := HTTPRetryWaitMax c |}])%list
    else opts in
  let client := {| godo.AccessToken := APIToken c; godo.opts := opts |} in
  emit (godo_New_call client) ;;;
  (match godo_New w client with
   | Some err =>
       return_ (None, Some (errorString ("DigitalOcean: could not create client, " +:+ err)))
   | None => ret tt
   end) ;;;
  (if bool_decide (0 < length (SnapshotRegions c))%nat then
     let opt := {| godo.Page := 1; godo.PerPage := 200 |} in
     emit (Regions_List_call opt) ;;;
     match Regions_List w opt with
     | inr err =>
         return_ (None, Some (errorString ("DigitalOcean: Unable to get regions, " +:+ err)))
     | inl regions =>
         check_regions (validRegions regions) (SnapshotRegions c ++ [Region c])
     end
   else ret tt) ;;;
  emit new_BasicStateBag ;;;
  let state := multistep.Put "config" (ConfigPtr c) ∅ in
  let state := multistep.Put "client" (ClientPtr client) state in
  let state := multistep.Put "hook" Hook state in
  let state := multistep.Put "ui" Ui state in
  wait <- deref (WaitSnapshotTransfer c) ;;
  let steps := steps c wait in
  let state' := runner_Run w steps (PackerConfig c) state in
  emit (runner_Run_call steps state state') ;;;
  match multistep.GetOk state' "error" with
  | Some rawErr =>
      err <- assert_error rawErr ;;
      return_ (None, Some err)
  | None =>
      if multistep.GetOk state' "snapshot_name" is None then
        emit (log_Println "Failed to find snapshot_name in state. Bug?") ;;;
        return_ (None, None)
      else
        artifact <- make_artifact client state' ;;
        return_ (Some artifact, None)
  end.

(** * Notions used in the statements *)

(** [wp m Q E s]: run from [s], [m] satisfies [Q] if it goes on and [E] if it
    returns from the function. *)
Definition wp {S R A} (m : M S R A) (Q : A -> S -> Prop) (E : R -> S -> Prop) (s : S) : Prop :=
  match m s with
  | Next a s' => Q a s'
  | Return r s' => E r s'
  | Panic _ _ => True
  end.

(** The state a computation ends in, and the result of the function when it
    returned. *)
Definition trace_of {S R A} (f : Flow S R A) : S :=
  match f with Next _ s | Return _ s | Panic _ s => s end.

Definition result_of {S R} (f : Flow S R R) : option R :=
  match f with Next r _ | Return r _ => Some r | Panic _ _ => None end.

(** An early return of [Config.Prepare] from a run that started in [s]:
    the secret filter is as it was, and the error is set. *)
Definition early (s : Store) (r : PrepareResult) (s' : Store) : Prop :=
  LogSecretFilter s' = LogSecretFilter s /\ is_Some (snd r).

(** The value a timeout has after its default was applied. *)
Definition timeout_or (d : time.Duration) (minutes : Z) : time.Duration :=
  if bool_decide (d = 0) then minutes * time.Minute else d.

(** What the decoding and the defaults leave in the receiver, in terms of the
    decoded configuration [d]. *)
Definition defaults_post (w : Env) (d : Config) (c' : Config) : Prop :=
  StateTimeout c' = timeout_or (StateTimeout d) 6
  /\ SnapshotTimeout c' = timeout_or (SnapshotTimeout d) 60
  /\ TransferTimeout c' = timeout_or (TransferTimeout d) 30
  /\ WaitSnapshotTransfer c' = Some (default true (WaitSnapshotTransfer d))
  /\ (exists v, HTTPRetryMax c' = Some v
        /\ (forall n, HTTPRetryMax d = Some n -> v = n)
        /\ (HTTPRetryMax d = None -> Getenv w "DIGITALOCEAN_HTTP_RETRY_MAX" = "" -> v = 5)
        /\ (HTTPRetryMax d = None -> Getenv w "DIGITALOCEAN_HTTP_RETRY_MAX" <> "" ->
            strconv.Atoi (Getenv w "DIGITALOCEAN_HTTP_RETRY_MAX") = inl v))
  /\ (exists v, HTTPRetryWaitMax c' = Some v
        /\ (forall x, HTTPRetryWaitMax d = Some x -> v = x)
        /\ (HTTPRetryWaitMax d = None ->
            Getenv w "DIGITALOCEAN_HTTP_RETRY_WAIT_MAX" = "" -> v = 30%float))
  /\ (exists v, HTTPRetryWaitMin c' = Some v
        /\ (forall x, HTTPRetryWaitMin d = Some x -> v = x)
        /\ (HTTPRetryWaitMin d = None ->
            Getenv w "DIGITALOCEAN_HTTP_RETRY_WAIT_MIN" = "" -> v = 1%float)).

(** A run of [Config.Prepare] gets to the validation: the decoding and the
    defaults neither return early nor panic. *)
Definition reaches_validation (w : Env) (s : Store) : Prop :=
  exists warns s1, Prepare_defaults w s = Next warns s1.

(** The receiver after [Config.Prepare], when it returned. *)
Definition prepared (w : Env) (s : Store) : option Config :=
  match Config_Prepare w s with
  | Next _ s' | Return _ s' => Some (config s')
  | Panic _ _ => None
  end.


(** The artifact is built whole, from the state bag, or not at all. *)
Definition populated_from (state : gmap string value) (client : godo.Client)
    (artifact : Artifact.t) : Prop :=
  state !! "snapshot_name" = Some (Str (Artifact.SnapshotName artifact))
  /\ state !! "snapshot_image_id" = Some (Int (Artifact.SnapshotId artifact))
  /\ state !! "regions" = Some (Strings (Artifact.RegionNames artifact))
  /\ Artifact.Client artifact = client
  /\ dom (Artifact.StateData artifact)
     = ({[ "generated_data"; "source_image_id"; "droplet_size"; "droplet_name";
           "build_region" ]} : gset string)
  /\ forall k, k ∈ dom (Artifact.StateData artifact) ->
               Artifact.StateData artifact !! k = Some (multistep.Get state k).

(** The claim C2 as the specification states it: a run that returns gives
    exactly one of an artifact and an error. *)
Definition artifact_xor_error (r : RunResult) : Prop :=
  (is_Some (fst r) /\ snd r = None) \/ (fst r = None /\ is_Some (snd r)).

(** ** Example inputs *)

Definition example_comm : communicator.Config :=
  {| communicator.Type_ := "ssh";
     communicator.SSHPrivateKeyFile := "";
     communicator.SSHTemporaryKeyPair_ :=
       {| communicator.SSHTemporaryKeyPairType := "rsa";
          communicator.SSHTemporaryKeyPairBits := 2048 |} |}.

Definition example_packer : common.PackerConfig :=
  {| common.PackerBuildName := "droplet";
     common.PackerBuilderType := "digitalocean";
     common.PackerDebug := false;
     common.PackerForce := false;
     common.PackerOnError := "cleanup" |}.

(** A configuration as a template with the required settings and two
    snapshot regions leaves it: nothing else is set. *)
Definition example_config : Config :=
  {| PackerConfig := example_packer; Comm := example_comm;
     APIToken := "dop_v1_token"; APIURL := "";
     HTTPRetryMax := None; HTTPRetryWaitMax := None; HTTPRetryWaitMin := None;
     Region := "nyc1"; Size := "s-1vcpu-1gb"; Image := "ubuntu-22-04-x64";
     PrivateNetworking := false; Monitoring := false; DropletAgent := None; IPv6 := false;
     SnapshotName := ""; SnapshotRegions := ["nyc3"; "ams3"];
     WaitSnapshotTransfer := None;
     TransferTimeout := 0; StateTimeout := 0; SnapshotTimeout := 0;
     DropletName := ""; UserData := ""; UserDataFile := ""; Tags := None;
     VPCUUID := ""; ConnectWithPrivateIP := false; SSHKeyID := 0; SkipKeygen := false |}.

(** A prepared configuration of a caller who brings a registered key and
    its private key file. *)
Definition example_own_key : Config :=
  {| PackerConfig := example_packer;
     Comm := {| communicator.Type_ := "ssh";
                communicator.SSHPrivateKeyFile := "id_rsa";
                communicator.SSHTemporaryKeyPair_ :=
                  communicator.SSHTemporaryKeyPair_ example_comm |};
     APIToken := "dop_v1_token"; APIURL := "";
     HTTPRetryMax := Some 5; HTTPRetryWaitMax := Some 30%float;
     HTTPRetryWaitMin := Some 1%float;
     Region := "nyc1"; Size := "s-1vcpu-1gb"; Image := "ubuntu-22-04-x64";
     PrivateNetworking := false; Monitoring := false; DropletAgent := None; IPv6 := false;
     SnapshotName := "golden"; SnapshotRegions := [];
     WaitSnapshotTransfer := Some true;
     TransferTimeout := 30 * time.Minute; StateTimeout := 6 * time.Minute;
     SnapshotTimeout := 60 * time.Minute;
     DropletName := "builder"; UserData := ""; UserDataFile := ""; Tags := Some [];
     VPCUUID := ""; ConnectWithPrivateIP := false; SSHKeyID := 4711; SkipKeygen := false |}.

(** An environment in which the variables named in [vars] are set. *)
Definition example_env (vars : list (string * string)) : Env :=
  {| Decode := fun c => (c, None);
     Getenv := fun key => default "" (snd <$> List.find (fun kv => bool_decide (fst kv = key)) vars);
     ParseFloat := fun s => inr (NumError "ParseFloat" s);
     Render := fun s => inl "packer-1700000000";
     TimeOrderedUUID := "6f1c2f9e-0000-11ee-be56-0242ac120002";
     Stat := fun _ => None;
     Comm_Prepare := fun comm => (comm, []) |}.

Definition example_store : Store := {| config := example_config; LogSecretFilter := ∅ |}.

(** [example_config] after [Config.Prepare] in an empty environment. *)
Definition example_prepared : Config :=
  set_WaitSnapshotTransfer (Some true)
    (set_TransferTimeout (30 * time.Minute)
       (set_SnapshotTimeout (60 * time.Minute)
          (set_StateTimeout (6 * time.Minute)
             (set_DropletName "packer-6f1c2f9e-0000-11ee-be56-0242ac120002"
                (set_SnapshotName "packer-1700000000"
                   (set_HTTPRetryWaitMin (Some 1%float)
                      (set_HTTPRetryWaitMax (Some 30%float)
                         (set_HTTPRetryMax (Some 5)
                            (set_Tags (Some []) example_config))))))))).

Definition region (slug : string) : godo.Region :=
  {| godo.Slug := slug; godo.Name := slug; godo.Available := true |}.

(** A provider that lists [slugs], and a runner that leaves in the state bag
    the entries of [result] on top of what it was given. *)
Definition example_world (slugs : list string) (result : list (string * value)) : World :=
  {| UserAgent := "packer-plugin-digitalocean";
     url_Parse := fun _ => None;
     godo_New := fun _ => None;
     Regions_List := fun _ => inl (map region slugs);
     runner_Run := fun _ _ state =>
       fold_right (fun kv st => multistep.Put (fst kv) (snd kv) st) state result |}.

(** The client and the state bag of a run on [example_prepared] in an
    [example_world]. *)
Definition example_client : godo.Client :=
  {| godo.AccessToken := "dop_v1_token";
     godo.opts :=
       [ godo.SetUserAgent "packer-plugin-digitalocean";
         godo.WithRetryAndBackoffs
           {| godo.RetryMax := 5;
              godo.RetryWaitMin := Some 1%float;
              godo.RetryWaitMax := Some 30%float |} ] |}.

Definition example_state : gmap string value :=
  multistep.Put "ui" Ui
    (multistep.Put "hook" Hook
       (multistep.Put "client" (ClientPtr example_client)
          (multistep.Put "config" (ConfigPtr example_prepared) ∅))).

(** The entries a successful snapshot step leaves in the state bag. *)
Definition example_success : list (string * value) :=
  [ ("snapshot_name", Str "packer-1700000000");
    ("snapshot_image_id", Int 148205176);
    ("regions", Strings ["nyc1"; "nyc3"; "ams3"]);
    ("source_image_id", Int 129211873);
    ("droplet_size", Str "s-1vcpu-1gb");
    ("droplet_name", Str "packer-6f1c2f9e-0000-11ee-be56-0242ac120002");
    ("build_region", Str "nyc1") ].

(** * Properties *)

(** ** Reasoning about a function body *)

Lemma wp_bind {S R A B} (m : M S R A) (k : A -> M S R B) Q E s :
  wp m (fun a s' => wp (k a) Q E s') E s -> wp (bind m k) Q E s.
Proof. unfold wp, bind. by destruct (m s). Qed.

Lemma wp_mono {S R A} (m : M S R A) (Q Q' : A -> S -> Prop) (E E' : R -> S -> Prop) s :
  wp m Q E s ->
  (forall a s', Q a s' -> Q' a s') ->
  (forall r s', E r s' -> E' r s') ->
  wp m Q' E' s.
Proof. unfold wp. destruct (m s); auto. Qed.

Lemma wp_Next {S R A} (m : M S R A) Q E s a s' :
  wp m Q E s -> m s = Next a s' -> Q a s'.
Proof. unfold wp. intros H Hm. by rewrite Hm in H. Qed.

Lemma wp_Return {S R A} (m : M S R A) Q E s r s' :
  wp m Q E s -> m s = Return r s' -> E r s'.
Proof. unfold wp. intros H Hm. by rewrite Hm in H. Qed.

Lemma bind_Next {S R A B} (m : M S R A) (k : A -> M S R B) s a s' :
  m s = Next a s' -> bind m k s = k a s'.
Proof. unfold bind. by intros ->. Qed.

(** Sequencing with a specification already proved for the first part. *)
Ltac wp_step H :=
  apply wp_bind; eapply wp_mono; [apply H | cbn beta | cbn beta].

Ltac run := unfold wp, bind, getc, assign, modify, ret, return_, panic, deref; cbn.

(** ** Assignments that change nothing *)

Lemma upd_id (f : Config -> Config) (s : Store) : f (config s) = config s -> upd f s = s.
Proof. destruct s as [c l]. unfold upd. cbn. by intros ->. Qed.

Lemma set_APIToken_id c : set_APIToken (APIToken c) c = c.
Proof. by destruct c. Qed.
Lemma set_APIURL_id c : set_APIURL (APIURL c) c = c.
Proof. by destruct c. Qed.
Lemma set_HTTPRetryMax_id c : set_HTTPRetryMax (HTTPRetryMax c) c = c.
Proof. by destruct c. Qed.
Lemma set_HTTPRetryWaitMax_id c : set_HTTPRetryWaitMax (HTTPRetryWaitMax c) c = c.
Proof. by destruct c. Qed.
Lemma set_HTTPRetryWaitMin_id c : set_HTTPRetryWaitMin (HTTPRetryWaitMin c) c = c.
Proof. by destruct c. Qed.
Lemma set_SnapshotName_id c : set_SnapshotName (SnapshotName c) c = c.
Proof. by destruct c. Qed.
Lemma set_DropletName_id c : set_DropletName (DropletName c) c = c.
Proof. by destruct c. Qed.
Lemma set_StateTimeout_id c : set_StateTimeout (StateTimeout c) c = c.
Proof. by destruct c. Qed.
Lemma set_SnapshotTimeout_id c : set_SnapshotTimeout (SnapshotTimeout c) c = c.
Proof. by destruct c. Qed.
Lemma set_TransferTimeout_id c : set_TransferTimeout (TransferTimeout c) c = c.
Proof. by destruct c. Qed.
Lemma set_WaitSnapshotTransfer_id c : set_WaitSnapshotTransfer (WaitSnapshotTransfer c) c = c.
Proof. by destruct c. Qed.
Lemma set_Tags_id c : set_Tags (Tags c) c = c.
Proof. by destruct c. Qed.

(** ** The blocks of [Config.Prepare] *)

Lemma decode_spec w s :
  wp (decode w) (fun _ s' => s' = upd (fun _ => fst (Decode w (config s))) s) (early s) s.
Proof.
  unfold decode. run. destruct (snd (Decode w (config s))) eqn:E; cbn; [|done].
  split; [done | eauto].
Qed.

Lemma default_APIToken_spec w warns s :
  wp (default_APIToken w warns) (fun _ s' => exists v, s' = upd (set_APIToken v) s) (early s) s.
Proof.
  unfold default_APIToken. run.
  repeat (case_bool_decide; run); eauto;
    exists (APIToken (config s)); symmetry; apply upd_id, set_APIToken_id.
Qed.

Lemma default_APIURL_spec w s :
  wp (default_APIURL w) (fun _ s' => exists v, s' = upd (set_APIURL v) s) (early s) s.
Proof.
  unfold default_APIURL. run. case_bool_decide; run; eauto.
  exists (APIURL (config s)). symmetry. apply upd_id, set_APIURL_id.
Qed.

Lemma default_HTTPRetryMax_spec w s :
  wp (default_HTTPRetryMax w)
    (fun _ s' => exists v, s' = upd (set_HTTPRetryMax (Some v)) s
       /\ (forall n, HTTPRetryMax (config s) = Some n -> v = n)
       /\ (HTTPRetryMax (config s) = None ->
           Getenv w "DIGITALOCEAN_HTTP_RETRY_MAX" = "" -> v = 5)
       /\ (HTTPRetryMax (config s) = None ->
           Getenv w "DIGITALOCEAN_HTTP_RETRY_MAX" <> "" ->
           strconv.Atoi (Getenv w "DIGITALOCEAN_HTTP_RETRY_MAX") = inl v))
    (early s) s.
Proof.
  unfold default_HTTPRetryMax. run.
  destruct (HTTPRetryMax (config s)) as [n|] eqn:E; run.
  - exists n. split; [|naive_solver].
    symmetry. apply upd_id. rewrite <- E. apply set_HTTPRetryMax_id.
  - case_bool_decide; run.
    + destruct (strconv.Atoi _) as [v|err] eqn:Ea; run.
      * exists v. naive_solver.
      * split; [done | eauto].
    + exists 5. naive_solver.
Qed.

Lemma default_HTTPRetryWaitMax_spec w s :
  wp (default_HTTPRetryWaitMax w)
    (fun _ s' => exists v, s' = upd (set_HTTPRetryWaitMax (Some v)) s
       /\ (forall x, HTTPRetryWaitMax (config s) = Some x -> v = x)
       /\ (HTTPRetryWaitMax (config s) = None ->
           Getenv w "DIGITALOCEAN_HTTP_RETRY_WAIT_MAX" = "" -> v = 30%float))
    (early s) s.
Proof.
  unfold default_HTTPRetryWaitMax. run.
  destruct (HTTPRetryWaitMax (config s)) as [n|] eqn:E; run.
  - exists n. split; [|naive_solver].
    symmetry. apply upd_id. rewrite <- E. apply set_HTTPRetryWaitMax_id.
  - case_bool_decide; run.
    + destruct (ParseFloat w _) as [v|err] eqn:Ea; run.
      * exists v. naive_solver.
      * split; [done | eauto].
    + exists 30%float. naive_solver.
Qed.

Lemma default_HTTPRetryWaitMin_spec w s :
  wp (default_HTTPRetryWaitMin w)
    (fun _ s' => exists v, s' = upd (set_HTTPRetryWaitMin (Some v)) s
       /\ (forall x, HTTPRetryWaitMin (config s) = Some x -> v = x)
       /\ (HTTPRetryWaitMin (config s) = None ->
           Getenv w "DIGITALOCEAN_HTTP_RETRY_WAIT_MIN" = "" -> v = 1%float))
    (early s) s.
Proof.
  unfold default_HTTPRetryWaitMin. run.
  destruct (HTTPRetryWaitMin (config s)) as [n|] eqn:E; run.
  - exists n. split; [|naive_solver].
    symmetry. apply upd_id. rewrite <- E. apply set_HTTPRetryWaitMin_id.
  - case_bool_decide; run.
    + destruct (ParseFloat w _) as [v|err] eqn:Ea; run.
      * exists v. naive_solver.
      * split; [done | eauto].
    + exists 1%float. naive_solver.
Qed.

Lemma default_SnapshotName_spec w s :
  wp (default_SnapshotName w) (fun _ s' => exists v, s' = upd (set_SnapshotName v) s) (early s) s.
Proof.
  unfold default_SnapshotName. run. case_bool_decide; run.
  - destruct (Render w _); run; eauto.
  - exists (SnapshotName (config s)). symmetry. apply upd_id, set_SnapshotName_id.
Qed.

Lemma default_DropletName_spec w s :
  wp (default_DropletName w) (fun _ s' => exists v, s' = upd (set_DropletName v) s) (early s) s.
Proof.
  unfold default_DropletName. run. case_bool_decide; run; eauto.
  exists (DropletName (config s)). symmetry. apply upd_id, set_DropletName_id.
Qed.

Lemma default_timeouts_spec s :
  wp default_timeouts
    (fun _ s' =>
       s' = upd (fun c =>
                   set_TransferTimeout (timeout_or (TransferTimeout c) 30)
                     (set_SnapshotTimeout (timeout_or (SnapshotTimeout c) 60)
                        (set_StateTimeout (timeout_or (StateTimeout c) 6) c))) s)
    (early s) s.
Proof.
  unfold default_timeouts, timeout_or. run. destruct s as [c l]. cbn.
  repeat (case_bool_decide; run); unfold upd; cbn; f_equal;
    repeat case_bool_decide; try congruence; by destruct c.
Qed.

Lemma default_WaitSnapshotTransfer_spec s :
  wp default_WaitSnapshotTransfer
    (fun _ s' =>
       s' = upd (fun c => set_WaitSnapshotTransfer
                            (Some (default true (WaitSnapshotTransfer c))) c) s)
    (early s) s.
Proof.
  unfold default_WaitSnapshotTransfer. run. destruct s as [c l]. cbn.
  destruct (WaitSnapshotTransfer c) eqn:E; run; unfold upd; cbn; rewrite E; [|done].
  cbn. f_equal. rewrite <- E. symmetry. apply set_WaitSnapshotTransfer_id.
Qed.

(** ** [Config.Prepare] as a whole *)

Ltac wp_seq H :=
  wp_step H; [ | try (unfold early; cbn; by auto) ].

Lemma Prepare_defaults_spec w s :
  wp (Prepare_defaults w)
    (fun _ s' => LogSecretFilter s' = LogSecretFilter s
                 /\ defaults_post w (fst (Decode w (config s))) (config s'))
    (early s) s.
Proof.
  unfold Prepare_defaults.
  wp_seq (decode_spec w s). intros _ s1 ->.
  wp_seq default_APIToken_spec. intros warns s2 [v2 ->].
  wp_seq default_APIURL_spec. intros _ s3 [v3 ->].
  wp_seq default_HTTPRetryMax_spec. intros _ s4 (v4 & -> & H4).
  wp_seq default_HTTPRetryWaitMax_spec. intros _ s5 (v5 & -> & H5).
  wp_seq default_HTTPRetryWaitMin_spec. intros _ s6 (v6 & -> & H6).
  wp_seq default_SnapshotName_spec. intros _ s7 [v7 ->].
  wp_seq default_DropletName_spec. intros _ s8 [v8 ->].
  wp_seq default_timeouts_spec. intros _ s9 ->.
  wp_seq default_WaitSnapshotTransfer_spec. intros _ s10 ->.
  unfold wp, ret. cbn in *. split; [done|].
  unfold defaults_post. cbn. repeat split; eauto.
Qed.

Lemma Prepare_validate_spec w s :
  exists errs comm tags,
    Prepare_validate w s = Next errs (upd (fun c => set_Tags tags (set_Comm comm c)) s)
    /\ comm = fst (Comm_Prepare w (Comm (config s))).
Proof.
  unfold Prepare_validate. run.
  destruct (Tags (config s)) as [tags|] eqn:E; run.
  - eexists _, _, (Some tags). split; [|done].
    f_equal. unfold upd. cbn. f_equal. rewrite <- E.
    change (Tags (config s)) with (Tags (set_Comm (Comm_Prepare w (Comm (config s))).1 (config s))).
    by rewrite set_Tags_id.
  - by eexists _, _, _.
Qed.

Lemma Prepare_finish_spec warns errs s :
  (exists e, errs = Some e /\ e <> []
     /\ Prepare_finish warns errs s = Return (warns, Some (MultiError e)) s)
  \/ ((errs = None \/ errs = Some [])
      /\ Prepare_finish warns errs s =
           Return (warns, None)
             {| config := config s;
                LogSecretFilter :=
                  packersdk.LogSecretFilter_Set (APIToken (config s)) (LogSecretFilter s) |}).
Proof.
  unfold Prepare_finish. destruct errs as [[|e l]|]; cbn.
  - right. split; [by right|]. by run.
  - left. exists (e :: l). split_and!; [done..|].
    rewrite bool_decide_eq_true_2 by lia. done.
  - right. split; [by left|]. by run.
Qed.

(** Once at the validation, [Config.Prepare] returns, and what the defaults
    left in the receiver is still there. *)
Lemma Config_Prepare_returns w s :
  reaches_validation w s ->
  exists r s', Config_Prepare w s = Return r s'
    /\ defaults_post w (fst (Decode w (config s))) (config s').
Proof.
  intros (warns & s1 & H1).
  pose proof (wp_Next _ _ _ _ _ _ (Prepare_defaults_spec w s) H1) as [_ Hd].
  destruct (Prepare_validate_spec w s1) as (errs & comm & tags & H2 & _).
  unfold Config_Prepare.
  rewrite (bind_Next _ _ _ _ _ H1), (bind_Next _ _ _ _ _ H2).
  destruct (Prepare_finish_spec warns errs (upd (fun c => set_Tags tags (set_Comm comm c)) s1))
    as [(e & _ & _ & ->)|[_ ->]]; eexists _, _; (split; [done|]); exact Hd.
Qed.

(** The secret filter after [Config.Prepare], on each of its returns. *)
Lemma Config_Prepare_filter w s :
  wp (Config_Prepare w) (fun _ _ => False)
    (fun r s' =>
       match snd r with
       | Some _ => LogSecretFilter s' = LogSecretFilter s
       | None =>
           LogSecretFilter s' =
             packersdk.LogSecretFilter_Set (APIToken (config s')) (LogSecretFilter s)
       end) s.
Proof.
  unfold Config_Prepare.
  apply wp_bind. eapply wp_mono; [apply Prepare_defaults_spec | cbn beta | cbn beta].
  - intros warns s1 [Hf _].
    destruct (Prepare_validate_spec w s1) as (errs & comm & tags & H2 & _).
    unfold wp at 1. rewrite (bind_Next _ _ _ _ _ H2).
    destruct (Prepare_finish_spec warns errs (upd (fun c => set_Tags tags (set_Comm comm c)) s1))
      as [(e & _ & _ & ->)|[_ ->]]; cbn; by rewrite Hf.
  - intros r s' [Hf [e He]]. by rewrite He.
Qed.

(** ** Runs of [Builder.Run] *)

Arguments multistep.Put : simpl never.
Arguments multistep.Get : simpl never.
Arguments multistep.GetOk : simpl never.
Arguments steps : simpl never.
Arguments genTempKeyPair : simpl never.
Arguments validRegions : simpl never.
Arguments check_regions : simpl never.
Arguments make_artifact : simpl never.
Arguments String.append : simpl never.


(** The loop over the configured regions either finds all of them valid, or
    returns the error for the first one that is not. *)
Lemma check_regions_spec (valid : gset string) (l : list string) (tr : list Event) :
  (Forall (fun region => region ∈ valid) l /\ check_regions valid l tr = Next tt tr)
  \/ (exists region, In region l /\ (region ∉ valid)
        /\ check_regions valid l tr =
             Return (None, Some (errorString ("DigitalOcean: Invalid region, " +:+ region))) tr).
Proof.
  induction l as [|region l IH]; unfold check_regions; fold check_regions.
  - left. by split.
  - case_bool_decide as Hin.
    + destruct IH as [[Hall ->]|(r & Hr & Hnot & ->)].
      * left. split; [by constructor | done].
      * right. exists r. split_and!; [by right | done..].
    + right. exists region. split_and!; [by left | done..].
Qed.

Lemma make_artifact_spec client state tr :
  (exists artifact, make_artifact client state tr = Next artifact tr
                    /\ populated_from state client artifact)
  \/ make_artifact client state tr = Panic interface_conversion tr.
Proof.
  unfold make_artifact, assert_string, assert_int, assert_strings, multistep.Get. run.
  destruct (state !! "snapshot_name") as [[]|] eqn:E1; cbn; auto.
  destruct (state !! "snapshot_image_id") as [[]|] eqn:E2; cbn; auto.
  destruct (state !! "regions") as [[]|] eqn:E3; cbn; auto.
  left. eexists. split; [done|]. unfold populated_from. cbn.
  split_and!; try done.
  intros k. rewrite !dom_insert_L, dom_empty_L, !elem_of_union, !elem_of_singleton.
  intros Hk. destruct_or!; [subst k; by simplify_map_eq .. | set_solver].
Qed.

(** Case analysis along a run of [Builder.Run], one decision at a time in
    the order of the source. *)
Ltac run_case :=
  match goal with
  | |- context [bool_decide (APIURL ?c ≠ "")] =>
      destruct (bool_decide_reflect (APIURL c ≠ ""))
  | |- context [url_Parse ?w ?u] => destruct (url_Parse w u) eqn:?
  | |- context [HTTPRetryMax ?c] => destruct (HTTPRetryMax c) eqn:?
  | |- context [godo_New ?w ?cl] => destruct (godo_New w cl) eqn:?
  | |- context [bool_decide (0 < length (SnapshotRegions ?c))%nat] =>
      destruct (bool_decide_reflect (0 < length (SnapshotRegions c))%nat)
  | |- context [Regions_List ?w ?o] => destruct (Regions_List w o) eqn:?
  | |- context [check_regions ?v ?l ?tr] =>
      let Hck := fresh "Hck" in
      destruct (check_regions_spec v l tr) as [[? Hck]|(? & ? & ? & Hck)]; rewrite Hck
  | |- context [WaitSnapshotTransfer ?c] => destruct (WaitSnapshotTransfer c) eqn:?
  | |- context [multistep.GetOk (runner_Run ?w ?l ?p ?st) "error"] =>
      destruct (multistep.GetOk (runner_Run w l p st) "error") as [[]|] eqn:?
  | |- context [multistep.GetOk (runner_Run ?w ?l ?p ?st) "snapshot_name"] =>
      destruct (multistep.GetOk (runner_Run w l p st) "snapshot_name") eqn:?
  | |- context [make_artifact ?cl ?st ?tr] =>
      let Hmk := fresh "Hmk" in
      destruct (make_artifact_spec cl st tr) as [(? & Hmk & ?)|Hmk]; rewrite Hmk
  end; cbn.

Ltac run_cases := unfold Run, emit, assert_error; run; repeat run_case.

(** What the runner is given: the step list of the configuration, and the
    state bag with the four entries put in it. *)
Lemma Run_runner_call w c steps0 st st' :
  In (runner_Run_call steps0 st st') (trace_of (Run w c [])) ->
  exists wait,
    WaitSnapshotTransfer c = Some wait
    /\ steps0 = steps c wait
    /\ st' = runner_Run w steps0 (PackerConfig c) st
    /\ dom st = ({[ "config"; "client"; "hook"; "ui" ]} : gset string).
Proof.
  run_cases; intros Hin; destruct_or?; simplify_eq; try done.
  all: eexists; split_and!; try done.
Qed.







(** What [Builder.Run] returns once the runner has run, by the state bag the
    runner leaves. *)
Lemma Run_error_slot w c steps0 st st' v :
  In (runner_Run_call steps0 st st') (trace_of (Run w c [])) ->
  st' !! "error" = Some v ->
  (exists err, v = Err err /\ result_of (Run w c []) = Some (None, Some err))
  \/ ((forall err, v <> Err err) /\ result_of (Run w c []) = None).
Proof.
  unfold multistep.GetOk in *.
  run_cases; intros Hin Hv; destruct_or?; simplify_eq; try done.
  all: unfold multistep.GetOk in *; simplify_eq; naive_solver.
Qed.

Lemma Run_neither w c steps0 st st' :
  In (runner_Run_call steps0 st st') (trace_of (Run w c [])) ->
  st' !! "error" = None ->
  st' !! "snapshot_name" = None ->
  result_of (Run w c []) = Some (None, None)
  /\ In (log_Println "Failed to find snapshot_name in state. Bug?") (trace_of (Run w c [])).
Proof.
  run_cases; intros Hin He Hs; destruct_or?; simplify_eq; try done.
  all: unfold multistep.GetOk in *; simplify_eq; cbn; (split; [done | tauto]).
Qed.

Lemma Run_artifact w c steps0 st st' :
  In (runner_Run_call steps0 st st') (trace_of (Run w c [])) ->
  st' !! "error" = None ->
  is_Some (st' !! "snapshot_name") ->
  result_of (Run w c []) = None
  \/ exists artifact client,
       result_of (Run w c []) = Some (Some artifact, None)
       /\ In (godo_New_call client) (trace_of (Run w c []))
       /\ populated_from st' client artifact.
Proof.
  run_cases; intros Hin He [? Hs]; destruct_or?; simplify_eq; try done.
  all: unfold multistep.GetOk in *; simplify_eq; cbn; auto.
  all: right; eexists _, _; (split_and!; [done | | done]); cbn; tauto.
Qed.

(** A run that returns has either reached the runner, or returns an error
    and no artifact. *)
Lemma Run_before_runner w c r :
  result_of (Run w c []) = Some r ->
  ((forall steps0 st st', ~ In (runner_Run_call steps0 st st') (trace_of (Run w c [])))
   /\ fst r = None /\ is_Some (snd r))
  \/ (exists steps0 st st', In (runner_Run_call steps0 st st') (trace_of (Run w c []))).
Proof.
  run_cases; intros Hr; simplify_eq; cbn.
  all: try (left; split; [naive_solver | eauto]; fail).
  all: right; eexists _, _, _; tauto.
Qed.

(** The runner is called at most once. *)
Lemma Run_runner_once w c steps1 st1 st1' steps2 st2 st2' :
  In (runner_Run_call steps1 st1 st1') (trace_of (Run w c [])) ->
  In (runner_Run_call steps2 st2 st2') (trace_of (Run w c [])) ->
  steps1 = steps2 /\ st1 = st2 /\ st1' = st2'.
Proof.
  run_cases; intros H1 H2; destruct_or?; simplify_eq; done.
Qed.

(** ** The step list *)

Lemma genTempKeyPair_true c :
  genTempKeyPair c = true
  <-> SkipKeygen c = false
      /\ (SSHKeyID c = 0 \/ communicator.SSHPrivateKeyFile (Comm c) = "").
Proof.
  unfold genTempKeyPair.
  rewrite andb_true_iff, negb_true_iff, orb_true_iff, !bool_decide_eq_true. done.
Qed.

(** The four shapes of the step list, by the two conditions of its
    [multistep.If] entries. *)
Ltac steps_cases c :=
  unfold steps, multistep.If;
  destruct (genTempKeyPair c) eqn:?;
  destruct (common.PackerDebug (PackerConfig c)
            && bool_decide (communicator.SSHPrivateKeyFile (Comm c) = "")) eqn:?;
  cbn.

(** Where a step can be in the list. *)
Lemma steps_shutdown_at c wait i : steps c wait !! i = Some stepShutdown -> i = 8%nat.
Proof.
  steps_cases c; do 11 (destruct i as [|i]; cbn; [congruence|]); done.
Qed.

Lemma steps_poweroff_at c wait i : steps c wait !! i = Some stepPowerOff -> i = 9%nat.
Proof.
  steps_cases c; do 11 (destruct i as [|i]; cbn; [congruence|]); done.
Qed.

Lemma steps_snapshot_at c wait i t1 t2 b :
  steps c wait !! i = Some (stepSnapshot t1 t2 b) ->
  i = 10%nat /\ t1 = SnapshotTimeout c /\ t2 = TransferTimeout c /\ b = wait.
Proof.
  steps_cases c; do 11 (destruct i as [|i]; cbn; [naive_solver|]); done.
Qed.

(** ** The example inputs *)

Example example_prepared_ok : prepared (example_env []) example_store = Some example_prepared.
Proof. vm_compute. reflexivity. Qed.

Lemma example_reaches_validation : reaches_validation (example_env []) example_store.
Proof. eexists _, _. vm_compute. reflexivity. Defined.

Example Minute_nanoseconds : time.Minute = 60000000000.
Proof. reflexivity. Qed.

(** * The claims *)



(** C2, counterexample: a runner that leaves neither an "error" nor a
    "snapshot_name" entry in the state bag makes [Builder.Run] return nil for
    both the artifact and the error. *)
Lemma C2_neither_artifact_nor_error :
  result_of (Run (example_world ["nyc1"; "nyc3"; "ams3"] []) example_prepared [])
  = Some (None, None)
  /\ ~ artifact_xor_error (None, None).
Proof.
  split; [vm_compute; reflexivity|].
  intros [[[x Hx] _]|[_ [x Hx]]]; discriminate Hx.
Qed.

(** C2, amended: a run of [Builder.Run] that returns never returns an
    artifact together with an error; an artifact it returns is fully
    populated from the state bag the runner left (snapshot name, snapshot id,
    region list, client, and the five metadata entries) and comes with a nil
    error; when the state bag's "error" slot is set, that error is returned
    with a nil artifact; nil is returned for both only when the runner left
    neither an "error" nor a "snapshot_name" entry; in every other case
    exactly one of an artifact and an error is returned. *)
Theorem C2_artifact_or_error (w : World) (c : Config) (r : RunResult) :
  result_of (Run w c []) = Some r ->
  (fst r = None \/ snd r = None)
  /\ (forall artifact,
        fst r = Some artifact ->
        snd r = None
        /\ exists steps0 st st' client,
             In (runner_Run_call steps0 st st') (trace_of (Run w c []))
             /\ In (godo_New_call client) (trace_of (Run w c []))
             /\ st' !! "error" = None
             /\ populated_from st' client artifact)
  /\ (forall steps0 st st' v,
        In (runner_Run_call steps0 st st') (trace_of (Run w c [])) ->
        st' !! "error" = Some v ->
        exists err, v = Err err /\ r = (None, Some err))
  /\ (fst r = None -> snd r = None ->
      exists steps0 st st',
        In (runner_Run_call steps0 st st') (trace_of (Run w c []))
        /\ st' !! "error" = None /\ st' !! "snapshot_name" = None)
  /\ ((forall steps0 st st',
         In (runner_Run_call steps0 st st') (trace_of (Run w c [])) ->
         is_Some (st' !! "error") \/ is_Some (st' !! "snapshot_name")) ->
      artifact_xor_error r).
Proof.
  intros Hr. destruct r as [a e]. cbn [fst snd].
  destruct (Run_before_runner w c _ Hr) as [(Hno & Ha & [e0 He])|(steps1 & st1 & st1' & Hin)];
    cbn [fst snd] in *.
  { subst a e. split_and!.
    - by left.
    - done.
    - intros steps0 st st' v Hin'. by apply Hno in Hin'.
    - done.
    - intros _. right. eauto. }
  assert (forall steps0 st st',
            In (runner_Run_call steps0 st st') (trace_of (Run w c [])) -> st' = st1') as Hsame.
  { intros steps0 st st' Hin'.
    by destruct (Run_runner_once _ _ _ _ _ _ _ _ Hin' Hin) as (_ & _ & ->). }
  destruct (st1' !! "error") as [v|] eqn:Herr.
  { destruct (Run_error_slot _ _ _ _ _ _ Hin Herr) as [(err & -> & Hres)|[_ Hres]];
      rewrite Hr in Hres; simplify_eq.
    split_and!.
    - by left.
    - done.
    - intros steps0 st st' v Hin' Hv. rewrite (Hsame _ _ _ Hin'), Herr in Hv. naive_solver.
    - done.
    - intros _. right. eauto. }
  destruct (st1' !! "snapshot_name") as [name|] eqn:Hname.
  - destruct (Run_artifact _ _ _ _ _ Hin Herr (mk_is_Some _ _ Hname))
      as [Hres|(artifact & client & Hres & Hcl & Hpop)]; rewrite Hr in Hres; simplify_eq.
    split_and!.
    + by right.
    + intros ? [= <-]. split; [done|]. by eexists _, _, _, _.
    + intros steps0 st st' v Hin' Hv. rewrite (Hsame _ _ _ Hin'), Herr in Hv. done.
    + done.
    + intros _. left. eauto.
  - destruct (Run_neither _ _ _ _ _ Hin Herr Hname) as [Hres _].
    rewrite Hr in Hres; simplify_eq.
    split_and!.
    + by left.
    + done.
    + intros steps0 st st' v Hin' Hv. rewrite (Hsame _ _ _ Hin'), Herr in Hv. done.
    + intros _ _. by eexists _, _, _.
    + intros Hall. destruct (Hall _ _ _ Hin) as [[? H]|[? H]]; congruence.
Qed.

Lemma C2_artifact_or_error_witness :
  let out := Run (example_world ["nyc1"; "nyc3"; "ams3"] example_success) example_prepared [] in
  let r := default (None, None) (result_of out) in
  result_of out = Some r
  /\ (Artifact.SnapshotId <$> fst r) = Some 148205176
  /\ artifact_xor_error r.
Proof.
  intros out r.
  assert (result_of out = Some r) as Hr by (vm_compute; reflexivity).
  split; [exact Hr|]. split; [vm_compute; reflexivity|].
  apply (C2_artifact_or_error (example_world ["nyc1"; "nyc3"; "ams3"] example_success)
           example_prepared r Hr).
  intros steps0 st st' Hin. right.
  destruct (Run_runner_call _ _ _ _ _ Hin) as (wait & _ & _ & -> & _).
  cbn. unfold multistep.Put. rewrite lookup_insert_eq. by eexists.
Defined.




(** C4: the steps that generate the temporary SSH key pair and register it
    with the provider are in the step list if and only if [skip_keygen] is
    false and [ssh_key_id] is 0 or [ssh_private_key_file] is empty; the list
    the runner is given is this list, fixed by the configuration before the
    runner runs any step. *)
Theorem C4_keygen_steps_iff (c : Config) :
  (forall wait step,
     step = StepSSHKeyGen (communicator.SSHTemporaryKeyPair_ (Comm c))
     \/ step = stepCreateSSHKey ->
     (In step (steps c wait)
      <-> SkipKeygen c = false
          /\ (SSHKeyID c = 0 \/ communicator.SSHPrivateKeyFile (Comm c) = "")))
  /\ (forall wait keyPair,
        In (StepSSHKeyGen keyPair) (steps c wait) ->
        keyPair = communicator.SSHTemporaryKeyPair_ (Comm c))
  /\ (forall w steps0 st st',
        In (runner_Run_call steps0 st st') (trace_of (Run w c [])) ->
        exists wait, WaitSnapshotTransfer c = Some wait /\ steps0 = steps c wait).
Proof.
  split_and!.
  - intros wait step Hstep. rewrite <- genTempKeyPair_true.
    steps_cases c; destruct Hstep as [-> | ->]; naive_solver.
  - intros wait keyPair. steps_cases c; naive_solver.
  - intros w steps0 st st' Hin.
    destruct (Run_runner_call _ _ _ _ _ Hin) as (wait & Hw & Hs & _). eauto.
Qed.

Lemma C4_keygen_steps_iff_witness :
  (SkipKeygen example_prepared = false /\ SSHKeyID example_prepared = 0)
  /\ In stepCreateSSHKey (steps example_prepared true)
  /\ In (StepSSHKeyGen (communicator.SSHTemporaryKeyPair_ (Comm example_prepared)))
       (steps example_prepared true)
  /\ ~ In stepCreateSSHKey (steps example_own_key true).
Proof.
  split_and!.
  - reflexivity.
  - reflexivity.
  - apply (proj2 (proj1 (C4_keygen_steps_iff example_prepared) true stepCreateSSHKey
                          (or_intror eq_refl))).
    split; [reflexivity | left; reflexivity].
  - apply (proj2 (proj1 (C4_keygen_steps_iff example_prepared) true _ (or_introl eq_refl))).
    split; [reflexivity | left; reflexivity].
  - intros Hin.
    apply (proj1 (proj1 (C4_keygen_steps_iff example_own_key) true stepCreateSSHKey
                          (or_intror eq_refl)))
      in Hin.
    destruct Hin as [_ [H|H]]; discriminate H.
Defined.

(** C5: in the step list [Builder.Run] assembles, for every configuration,
    the shutdown step comes before the power-off step and the power-off step
    before the snapshot step (each is there once, at the ninth, tenth and
    eleventh place); so in whatever initial part of the list has been run,
    in order, when the snapshot step is reached, the power-off and shutdown
    steps are there before it.  This list is the one the runner is given. *)
Theorem C5_shutdown_poweroff_snapshot_order (c : Config) (wait : bool) :
  (steps c wait !! 8%nat = Some stepShutdown
   /\ steps c wait !! 9%nat = Some stepPowerOff
   /\ steps c wait !! 10%nat
      = Some (stepSnapshot (SnapshotTimeout c) (TransferTimeout c) wait)
   /\ length (steps c wait) = 11%nat)
  /\ (forall i j k t1 t2 b,
        steps c wait !! i = Some stepShutdown ->
        steps c wait !! j = Some stepPowerOff ->
        steps c wait !! k = Some (stepSnapshot t1 t2 b) ->
        (i < j < k)%nat)
  /\ (forall n t1 t2 b,
        In (stepSnapshot t1 t2 b) (take n (steps c wait)) ->
        take n (steps c wait) = steps c wait
        /\ exists before,
             steps c wait = (before ++ [stepSnapshot t1 t2 b])%list
             /\ In stepPowerOff before /\ In stepShutdown before)
  /\ (forall w steps0 st st',
        In (runner_Run_call steps0 st st') (trace_of (Run w c [])) ->
        WaitSnapshotTransfer c = Some wait ->
        steps0 = steps c wait).
Proof.
  split_and!; try reflexivity.
  - intros i j k t1 t2 b Hi%steps_shutdown_at Hj%steps_poweroff_at Hk%steps_snapshot_at.
    lia.
  - intros n t1 t2 b Hin.
    apply list_elem_of_In, list_elem_of_lookup in Hin as [k Hk].
    pose proof Hk as Hlt%lookup_lt_Some. rewrite length_take in Hlt.
    rewrite lookup_take_lt in Hk by lia.
    apply steps_snapshot_at in Hk as (-> & -> & -> & ->).
    split.
    + apply take_ge. assert (length (steps c wait) = 11%nat) by reflexivity. lia.
    + exists (take 10 (steps c wait)). split_and!.
      * reflexivity.
      * steps_cases c; tauto.
      * steps_cases c; tauto.
  - intros w steps0 st st' Hin Hw.
    destruct (Run_runner_call _ _ _ _ _ Hin) as (wait' & Hw' & -> & _). congruence.
Qed.

Lemma C5_shutdown_poweroff_snapshot_order_witness :
  (steps example_prepared true !! 8%nat = Some stepShutdown
   /\ steps example_prepared true !! 9%nat = Some stepPowerOff
   /\ steps example_prepared true !! 10%nat
      = Some (stepSnapshot (60 * time.Minute) (30 * time.Minute) true))
  /\ (8 < 9 < 10)%nat.
Proof.
  pose proof (C5_shutdown_poweroff_snapshot_order example_prepared true)
    as ((H8 & H9 & H10 & _) & Horder & _).
  split.
  - split_and!; reflexivity.
  - exact (Horder 8%nat 9%nat 10%nat _ _ _ H8 H9 H10).
Defined.

(** C6: for every configuration that leaves them at their zero value,
    [Config.Prepare] (once past the decoding and the parsing of the retry
    settings, where it can return early) sets [state_timeout] to 6 minutes,
    [snapshot_timeout] to 60 minutes and [transfer_timeout] to 30 minutes. *)
Theorem C6_timeout_defaults (w : Env) (s : Store) :
  reaches_validation w s ->
  exists r s',
    Config_Prepare w s = Return r s'
    /\ (StateTimeout (fst (Decode w (config s))) = 0 ->
        StateTimeout (config s') = 6 * time.Minute)
    /\ (SnapshotTimeout (fst (Decode w (config s))) = 0 ->
        SnapshotTimeout (config s') = 60 * time.Minute)
    /\ (TransferTimeout (fst (Decode w (config s))) = 0 ->
        TransferTimeout (config s') = 30 * time.Minute).
Proof.
  intros Hreach.
  destruct (Config_Prepare_returns w s Hreach) as (r & s' & Hret & Hpost).
  destruct Hpost as (H1 & H2 & H3 & _).
  exists r, s'. split_and!; [done | | |]; intros Hz.
  - by rewrite H1, Hz.
  - by rewrite H2, Hz.
  - by rewrite H3, Hz.
Qed.

Lemma C6_timeout_defaults_witness :
  reaches_validation (example_env []) example_store
  /\ exists r s',
       Config_Prepare (example_env []) example_store = Return r s'
       /\ StateTimeout (config s') = 6 * time.Minute
       /\ SnapshotTimeout (config s') = 60 * time.Minute
       /\ TransferTimeout (config s') = 30 * time.Minute.
Proof.
  split; [exact example_reaches_validation|].
  destruct (C6_timeout_defaults (example_env []) example_store example_reaches_validation)
    as (r & s' & Hret & H1 & H2 & H3).
  exists r, s'. split_and!; [exact Hret | apply H1 | apply H2 | apply H3]; reflexivity.
Defined.



(** C8: if, after the runner finishes, the state bag holds neither an "error"
    entry nor a "snapshot_name" entry, [Builder.Run] returns nil for both the
    artifact and the error (after logging that the snapshot name is
    missing). *)
Theorem C8_neither_entry_returns_nil_nil (w : World) (c : Config)
    (steps0 : list Step) (st st' : gmap string value) :
  In (runner_Run_call steps0 st st') (trace_of (Run w c [])) ->
  st' !! "error" = None ->
  st' !! "snapshot_name" = None ->
  result_of (Run w c []) = Some (None, None)
  /\ In (log_Println "Failed to find snapshot_name in state. Bug?") (trace_of (Run w c [])).
Proof. apply Run_neither. Qed.

Lemma C8_neither_entry_returns_nil_nil_witness :
  let w := example_world ["nyc1"; "nyc3"; "ams3"] [] in
  (In (runner_Run_call (steps example_prepared true) example_state example_state)
      (trace_of (Run w example_prepared []))
   /\ example_state !! "error" = None
   /\ example_state !! "snapshot_name" = None)
  /\ result_of (Run w example_prepared []) = Some (None, None)
  /\ In (log_Println "Failed to find snapshot_name in state. Bug?")
       (trace_of (Run w example_prepared [])).
Proof.
  intros w.
  assert (In (runner_Run_call (steps example_prepared true) example_state example_state)
            (trace_of (Run w example_prepared []))) as Hin by (vm_compute; tauto).
  assert (example_state !! "error" = None) as Herr by reflexivity.
  assert (example_state !! "snapshot_name" = None) as Hname by reflexivity.
  split; [done|].
  exact (C8_neither_entry_returns_nil_nil w example_prepared _ _ _ Hin Herr Hname).
Defined.

(** C9: for every configuration that [Builder.Prepare] accepts (it returns
    no error), a non-zero [ssh_key_id] comes with a non-empty
    [ssh_private_key_file]; so, for such a configuration, the temporary key
    pair is generated if and only if [skip_keygen] is false and [ssh_key_id]
    is 0. *)
Theorem C9_accepted_key_id_has_key_file (w : Env) (s : Store)
    (r : BuilderPrepareResult) (s' : Store) :
  Builder_Prepare w s = Return r s' ->
  snd r = None ->
  (SSHKeyID (config s') <> 0 -> communicator.SSHPrivateKeyFile (Comm (config s')) <> "")
  /\ (genTempKeyPair (config s') = true
      <-> SkipKeygen (config s') = false /\ SSHKeyID (config s') = 0).
Proof.
  unfold Builder_Prepare, call. run.
  destruct (Config_Prepare w s) as [[warns errs] s1|[warns errs] s1|v s1]; cbn.
  3: done.
  all: destruct (bool_decide_reflect (SSHKeyID (config s1) ≠ 0)) as [Hid|Hid];
    destruct (bool_decide_reflect (communicator.SSHPrivateKeyFile (Comm (config s1)) = ""))
      as [Hfile|Hfile]; cbn.
  all: destruct errs; cbn; intros [= <- <-]; cbn; try discriminate; intros _.
  all: rewrite genTempKeyPair_true.
  all: destruct (decide (SSHKeyID (config s1) = 0)); naive_solver.
Qed.

Lemma C9_accepted_key_id_has_key_file_witness :
  let out := Builder_Prepare (example_env []) {| config := example_own_key;
                                                 LogSecretFilter := ∅ |} in
  result_of out = Some ([], [], None)
  /\ (SSHKeyID (config (trace_of out)) <> 0 ->
      communicator.SSHPrivateKeyFile (Comm (config (trace_of out))) <> "")
  /\ (genTempKeyPair (config (trace_of out)) = true
      <-> SkipKeygen (config (trace_of out)) = false /\ SSHKeyID (config (trace_of out)) = 0).
Proof.
  intros out. split; [vm_compute; reflexivity|].
  apply (C9_accepted_key_id_has_key_file (example_env [])
           {| config := example_own_key; LogSecretFilter := ∅ |}
           ([], [], None) (trace_of out)); [vm_compute; reflexivity | reflexivity].
Defined.

(** C10: [Config.Prepare] adds the API token to the global log secret filter
    only when it succeeds: when it returns an error (whether it returned
    early, or the validation accumulated errors, which it then returns) the
    filter is as it was before the call, and when it returns no error the
    filter holds the token in addition. *)
Theorem C10_secret_filter_only_on_success (w : Env) (s : Store)
    (r : PrepareResult) (s' : Store) :
  Config_Prepare w s = Return r s' ->
  (is_Some (snd r) -> LogSecretFilter s' = LogSecretFilter s)
  /\ (snd r = None -> LogSecretFilter s' = {[ APIToken (config s') ]} ∪ LogSecretFilter s)
  /\ (forall warns s1 errs s2,
        Prepare_defaults w s = Next warns s1 ->
        Prepare_validate w s1 = Next (Some errs) s2 ->
        errs <> [] ->
        r = (warns, Some (MultiError errs)) /\ LogSecretFilter s' = LogSecretFilter s).
Proof.
  intros Hret.
  pose proof (wp_Return _ _ _ _ _ _ (Config_Prepare_filter w s) Hret) as Hf. cbn beta in Hf.
  assert (is_Some (snd r) -> LogSecretFilter s' = LogSecretFilter s) as Herr.
  { intros [e He]. by rewrite He in Hf. }
  split_and!.
  - exact Herr.
  - intros Hnone. by rewrite Hnone in Hf.
  - intros warns s1 errs s2 H1 H2 Hne. revert Hret. unfold Config_Prepare.
    rewrite (bind_Next _ _ _ _ _ H1), (bind_Next _ _ _ _ _ H2).
    destruct (Prepare_finish_spec warns (Some errs) s2)
      as [(e & [= <-] & _ & ->)|[[?|[= ->]] _]]; try done.
    intros [= <- <-]. split; [done|]. apply Herr. by eexists.
Qed.

Lemma C10_secret_filter_only_on_success_witness :
  let ok := Config_Prepare (example_env []) example_store in
  let bad := Config_Prepare (example_env []) {| config := set_APIToken "" example_config;
                                                LogSecretFilter := ∅ |} in
  (result_of ok = Some ([], None)
   /\ LogSecretFilter (trace_of ok) = {[ "dop_v1_token" ]} ∪ ∅)
  /\ (result_of bad
      = Some ([], Some (MultiError [errors_New "api_token for auth must be specified"]))
      /\ LogSecretFilter (trace_of bad) = ∅).
Proof.
  intros ok bad. split_and!.
  - vm_compute. reflexivity.
  - apply (proj1 (proj2 (C10_secret_filter_only_on_success (example_env []) example_store
                           ([], None) (trace_of ok) ltac:(vm_compute; reflexivity)))).
    reflexivity.
  - vm_compute. reflexivity.
  - apply (proj1 (C10_secret_filter_only_on_success (example_env [])
                    {| config := set_APIToken "" example_config; LogSecretFilter := ∅ |}
                    ([], Some (MultiError [errors_New "api_token for auth must be specified"]))
                    (trace_of bad) ltac:(vm_compute; reflexivity))).
    by eexists.
Defined.
